(** * useAutoScroll: edge-triggered auto-scrolling during a drag

    A shallow embedding of [src/components/useAutoScroll.ts] and the
    properties of it that the specification states.

    Conventions of the embedding.
    - A JavaScript [number] is an exact rational ([Q]): the rounding of
      binary64 arithmetic is not modelled, and equalities between
      numbers are stated with [==] ([Qeq]).  The inputs that refute the
      range and the monotonicity of the speed are run in binary64 as
      well ([Binary64]); every intermediate value is exact there.
    - A DOM element is a node of a finite tree: an object with an
      identity and a [parentElement] field.  Layout-dependent getters
      ([getComputedStyle], [scrollHeight], [getBoundingClientRect], ...)
      are read from a [Page], the snapshot of document and window at the
      time of the call.
    - The three refs of the hook, the cleanup closure React retains for
      the effect, and the part of the platform the hook touches (pending
      animation frames, wheel listeners of [window], the [scrollTop] of
      every element, the calls made to [onScroll]) form one [State],
      passed explicitly.  An assignment to [scrollTop] stores the value
      it is given: what a browser does to it is not part of the source. *)

From Stdlib Require Import QArith Qabs Lqa Lia List String Bool Arith.
From Stdlib Require Import SpecFloat ZArith.
Import ListNotations.

Local Open Scope Q_scope.

(** ** DOM *)

(** [HTMLElement]: the identity of the node and its [parentElement]
    ([None] is JavaScript's [null]). *)
#[local] Unset Elimination Schemes.
Inductive HTMLElement : Type :=
| Element (nodeId : nat) (parent : option HTMLElement).
#[local] Set Elimination Schemes.

Definition nodeId (e : HTMLElement) : nat :=
  match e with Element i _ => i end.

Definition parentElement (e : HTMLElement) : option HTMLElement :=
  match e with Element _ p => p end.

(** Induction along [parentElement]. *)
Fixpoint HTMLElement_chain_ind (P : HTMLElement -> Prop)
    (Htop : forall i, P (Element i None))
    (Hchild : forall i p, P p -> P (Element i (Some p)))
    (e : HTMLElement) {struct e} : P e :=
  match e with
  | Element i None => Htop i
  | Element i (Some p) =>
      Hchild i p (HTMLElement_chain_ind P Htop Hchild p)
  end.

(** [a === b] on element references. *)
Definition same (a : HTMLElement) (b : option HTMLElement) : bool :=
  match b with
  | Some b' => Nat.eqb (nodeId a) (nodeId b')
  | None => false
  end.

(** What the hook reads of [document] and [window]. *)
Record Page : Type := {
  body : option HTMLElement;              (* document.body *)
  documentElement : option HTMLElement;   (* document.documentElement *)
  scrollingElement : option HTMLElement;  (* document.scrollingElement *)
  content : option HTMLElement;           (* document.getElementById('content') *)
  innerHeight : Q;                        (* window.innerHeight *)
  overflowY : nat -> string;              (* window.getComputedStyle(e).overflowY *)
  scrollHeight : nat -> Q;                (* e.scrollHeight *)
  clientHeight : nat -> Q;                (* e.clientHeight *)
  rectTop : nat -> Q;                     (* e.getBoundingClientRect().top *)
  rectBottom : nat -> Q                   (* e.getBoundingClientRect().bottom *)
}.

(** [x < y] on numbers. *)
Definition Qltb (x y : Q) : bool := negb (Qle_bool y x).

(** [current === document.body || current === document.documentElement] *)
Definition isDocRoot (p : Page) (current : HTMLElement) : bool :=
  same current (body p) || same current (documentElement p).

(** [(overflowY === 'auto' || overflowY === 'scroll') &&
     current.scrollHeight > current.clientHeight] *)
Definition scrollable (p : Page) (current : HTMLElement) : bool :=
  (String.eqb (overflowY p (nodeId current)) "auto"
   || String.eqb (overflowY p (nodeId current)) "scroll")
  && Qltb (clientHeight p (nodeId current)) (scrollHeight p (nodeId current)).

(** [a ?? b] *)
Definition nullish {A : Type} (a : option A) (b : option A) : option A :=
  match a with
  | Some x => Some x
  | None => b
  end.

(** The body of the [while (current)] loop, entered with a non-null
    [current]. *)
Fixpoint walk (p : Page) (current : HTMLElement) {struct current}
  : option HTMLElement :=
  if isDocRoot p current then
    nullish (scrollingElement p) (Some current)
  else if scrollable p current then
    Some current
  else
    match parentElement current with
    | Some up => walk p up
    | None => nullish (scrollingElement p) None
    end.

Definition findScrollableAncestor (p : Page) (el : option HTMLElement)
  : option HTMLElement :=
  match el with
  | Some current => walk p current
  | None => nullish (scrollingElement p) None
  end.

(** ** The hook and the platform it runs on *)

Record State : Type := mkState {
  (* refs of the hook *)
  speedRef : Q;                        (* useRef(0) *)
  rafRef : option nat;                 (* useRef<number | null>(null) *)
  containerRef : option HTMLElement;   (* useRef<HTMLElement | null>(null) *)
  onScrollRef : bool;                  (* true: a function, false: undefined *)
  (* the cleanup closure returned by the last run of the effect, kept by
     React; it captures the [blockWheel] listener of that run *)
  cleanup : option nat;
  (* platform *)
  frames : list nat;                   (* pending requestAnimationFrame handles *)
  nextFrame : nat;                     (* the handle the next request returns *)
  wheel : list nat;                    (* 'wheel' listeners of window *)
  nextListener : nat;                  (* identity of the next closure created *)
  scrollTop : nat -> Q;                (* e.scrollTop *)
  observed : list Q                    (* arguments of the calls to onScroll *)
}.

Definition with_speedRef (v : Q) (s : State) : State :=
  mkState v (rafRef s) (containerRef s) (onScrollRef s) (cleanup s)
          (frames s) (nextFrame s) (wheel s) (nextListener s)
          (scrollTop s) (observed s).

Definition with_rafRef (v : option nat) (s : State) : State :=
  mkState (speedRef s) v (containerRef s) (onScrollRef s) (cleanup s)
          (frames s) (nextFrame s) (wheel s) (nextListener s)
          (scrollTop s) (observed s).

Definition with_containerRef (v : option HTMLElement) (s : State) : State :=
  mkState (speedRef s) (rafRef s) v (onScrollRef s) (cleanup s)
          (frames s) (nextFrame s) (wheel s) (nextListener s)
          (scrollTop s) (observed s).

Definition with_onScrollRef (v : bool) (s : State) : State :=
  mkState (speedRef s) (rafRef s) (containerRef s) v (cleanup s)
          (frames s) (nextFrame s) (wheel s) (nextListener s)
          (scrollTop s) (observed s).

Definition with_cleanup (v : option nat) (s : State) : State :=
  mkState (speedRef s) (rafRef s) (containerRef s) (onScrollRef s) v
          (frames s) (nextFrame s) (wheel s) (nextListener s)
          (scrollTop s) (observed s).

Definition with_frames (v : list nat) (s : State) : State :=
  mkState (speedRef s) (rafRef s) (containerRef s) (onScrollRef s) (cleanup s)
          v (nextFrame s) (wheel s) (nextListener s)
          (scrollTop s) (observed s).

Definition with_nextFrame (v : nat) (s : State) : State :=
  mkState (speedRef s) (rafRef s) (containerRef s) (onScrollRef s) (cleanup s)
          (frames s) v (wheel s) (nextListener s)
          (scrollTop s) (observed s).

Definition with_wheel (v : list nat) (s : State) : State :=
  mkState (speedRef s) (rafRef s) (containerRef s) (onScrollRef s) (cleanup s)
          (frames s) (nextFrame s) v (nextListener s)
          (scrollTop s) (observed s).

Definition with_nextListener (v : nat) (s : State) : State :=
  mkState (speedRef s) (rafRef s) (containerRef s) (onScrollRef s) (cleanup s)
          (frames s) (nextFrame s) (wheel s) v
          (scrollTop s) (observed s).

Definition with_scrollTop (v : nat -> Q) (s : State) : State :=
  mkState (speedRef s) (rafRef s) (containerRef s) (onScrollRef s) (cleanup s)
          (frames s) (nextFrame s) (wheel s) (nextListener s)
          v (observed s).

Definition with_observed (v : list Q) (s : State) : State :=
  mkState (speedRef s) (rafRef s) (containerRef s) (onScrollRef s) (cleanup s)
          (frames s) (nextFrame s) (wheel s) (nextListener s)
          (scrollTop s) v.

(** *** Platform calls *)

(** [requestAnimationFrame(tick)]: the only callback the hook ever
    registers is [tick], so a pending frame is its handle. *)
Definition requestAnimationFrame (s : State) : nat * State :=
  (nextFrame s,
   with_nextFrame (S (nextFrame s)) (with_frames (frames s ++ [nextFrame s]) s)).

Definition cancelAnimationFrame (h : nat) (s : State) : State :=
  with_frames (remove Nat.eq_dec h (frames s)) s.

(** [window.addEventListener('wheel', l, {passive: false})] *)
Definition addEventListener (l : nat) (s : State) : State :=
  with_wheel (wheel s ++ [l]) s.

(** [window.removeEventListener('wheel', l)] *)
Definition removeEventListener (l : nat) (s : State) : State :=
  with_wheel (remove Nat.eq_dec l (wheel s)) s.

(** [e.scrollTop = v] *)
Definition setScrollTop (e : HTMLElement) (v : Q) (s : State) : State :=
  with_scrollTop
    (fun i => if Nat.eqb i (nodeId e) then v else scrollTop s i) s.

(** [onScrollRef.current?.(v)] *)
Definition callOnScroll (v : Q) (s : State) : State :=
  if onScrollRef s then with_observed (observed s ++ [v]) s else s.

(** A wheel event dispatched on window: every listener installed by the
    hook is a [blockWheel], which calls [e.preventDefault()]. *)
Definition wheelPrevented (s : State) : bool :=
  match wheel s with
  | [] => false
  | _ :: _ => true
  end.

(** *** The hook *)

Definition threshold : Q := 100.
Definition maxSpeed : Q := 15.

(** [tick], the frame callback. *)
Definition tick (s : State) : State :=
  let s1 :=
    if negb (Qeq_bool (speedRef s) 0) then
      match containerRef s with
      | Some el =>
          let s' := setScrollTop el (scrollTop s (nodeId el) + speedRef s) s in
          callOnScroll (scrollTop s' (nodeId el)) s'
      | None => s
      end
    else s in
  let (h, s2) := requestAnimationFrame s1 in
  with_rafRef (Some h) s2.

(** [if (rafRef.current !== null) { cancelAnimationFrame(rafRef.current);
    rafRef.current = null }] *)
Definition cancelPending (s : State) : State :=
  match rafRef s with
  | Some h => with_rafRef None (cancelAnimationFrame h s)
  | None => s
  end.

(** The function passed to [useEffect], run with the current value of
    [isDragging]; the cleanup it returns is stored in [cleanup]. *)
Definition effect (p : Page) (isDragging : bool) (s : State) : State :=
  if negb isDragging then
    let s1 := cancelPending s in
    let s2 := with_speedRef 0 s1 in
    let s3 := with_containerRef None s2 in
    with_cleanup None s3
  else
    match findScrollableAncestor p (content p) with
    | None => with_cleanup None s
    | Some el =>
        let s1 := with_containerRef (Some el) s in
        let (h, s2) := requestAnimationFrame s1 in
        let s3 := with_rafRef (Some h) s2 in
        let blockWheel := nextListener s3 in
        let s4 := with_nextListener (S blockWheel) s3 in
        let s5 := addEventListener blockWheel s4 in
        with_cleanup (Some blockWheel) s5
    end.

(** Running the cleanup closure React retained, if there is one. *)
Definition runCleanup (s : State) : State :=
  match cleanup s with
  | Some blockWheel =>
      let s1 := cancelPending s in
      let s2 := removeEventListener blockWheel s1 in
      with_cleanup None s2
  | None => s
  end.

(** React re-runs the effect for a new value of its dependency
    [isDragging]: first the cleanup of the previous run, then the effect. *)
Definition onDragStateChange (p : Page) (isDragging : bool) (s : State)
  : State :=
  effect p isDragging (runCleanup s).

Definition dragStart (p : Page) : State -> State := onDragStateChange p true.
Definition dragStop (p : Page) : State -> State := onDragStateChange p false.

(** Unmounting the component runs the cleanup of the last run. *)
Definition teardown (s : State) : State := runCleanup s.

Definition updatePointerY (p : Page) (clientY : Q) (s : State) : State :=
  match containerRef s with
  | None => s
  | Some el =>
      let isDocScroller := same el (body p) || same el (documentElement p) in
      let top := if isDocScroller then 0 else rectTop p (nodeId el) in
      let bottom :=
        if isDocScroller then innerHeight p else rectBottom p (nodeId el) in
      let distFromTop := clientY - top in
      let distFromBottom := bottom - clientY in
      if Qltb distFromTop threshold then
        let ratio := 1 - distFromTop / threshold in
        with_speedRef ((- maxSpeed) * ratio * ratio) s
      else if Qltb distFromBottom threshold then
        let ratio := 1 - distFromBottom / threshold in
        with_speedRef (maxSpeed * ratio * ratio) s
      else
        with_speedRef 0 s
  end.

(** *** Histories *)

Inductive Event : Type :=
| Render (onScroll : bool)                 (* onScrollRef.current = onScroll *)
| DragState (p : Page) (isDragging : bool) (* the effect runs for isDragging *)
| PointerY (p : Page) (clientY : Q)        (* updatePointerY(clientY) *)
| AnimationFrame                           (* the oldest pending frame fires *)
| Unmount.

Definition step (s : State) (ev : Event) : State :=
  match ev with
  | Render onScroll => with_onScrollRef onScroll s
  | DragState p isDragging => onDragStateChange p isDragging s
  | PointerY p clientY => updatePointerY p clientY s
  | AnimationFrame =>
      match frames s with
      | [] => s
      | _ :: rest => tick (with_frames rest s)
      end
  | Unmount => teardown s
  end.

Definition run (evs : list Event) (s : State) : State :=
  fold_left step evs s.

(** The state of a freshly mounted hook, over the scroll offsets
    [offsets] the elements have at that time. *)
Definition mount (offsets : nat -> Q) : State :=
  mkState 0 None None false None [] 1%nat [] 0%nat offsets [].

(** ** The resolver as the specification words it *)

(** The candidates the walk visits: the element itself, then its
    ancestors, closest first. *)
Fixpoint chain (e : HTMLElement) : list HTMLElement :=
  match e with
  | Element _ (Some up) => e :: chain up
  | Element _ None => [e]
  end.

Definition chainOf (el : option HTMLElement) : list HTMLElement :=
  match el with
  | Some e => chain e
  | None => []
  end.

(** A candidate at which the walk stops. *)
Definition stops (p : Page) (c : HTMLElement) : bool :=
  isDocRoot p c || scrollable p c.

(** The closest candidate at which the walk stops, if any. *)
Definition firstStop (p : Page) (el : option HTMLElement)
  : option HTMLElement :=
  find (stops p) (chainOf el).

(** The algorithm of the specification: the first candidate that is the
    body or root element yields the document's scrolling element, the
    first that is scrollable yields itself, and an exhausted walk yields
    the scrolling element, or null. *)
Definition resolve_spec (p : Page) (el : option HTMLElement)
  : option HTMLElement :=
  match firstStop p el with
  | Some c => if isDocRoot p c then scrollingElement p else Some c
  | None => scrollingElement p
  end.

(** ** Visible bounds *)

(** The visible bounds of a target, the [top] and [bottom] of
    [updatePointerY]: the viewport for the body and root elements, the
    bounding rectangle otherwise. *)
Definition visibleTop (p : Page) (el : HTMLElement) : Q :=
  if isDocRoot p el then 0 else rectTop p (nodeId el).

Definition visibleBottom (p : Page) (el : HTMLElement) : Q :=
  if isDocRoot p el then innerHeight p else rectBottom p (nodeId el).

(** The [distFromTop] and [distFromBottom] of [updatePointerY]. *)
Definition distFromTop (p : Page) (el : HTMLElement) (clientY : Q) : Q :=
  clientY - visibleTop p el.

Definition distFromBottom (p : Page) (el : HTMLElement) (clientY : Q) : Q :=
  visibleBottom p el - clientY.

(** ** Histories within bounds *)

(** [top <= clientY <= bottom] for the target stored at the time of the
    call; a call without a target is not constrained. *)
Definition pointerWithin (p : Page) (clientY : Q) (s : State) : bool :=
  match containerRef s with
  | Some el =>
      Qle_bool (visibleTop p el) clientY
      && Qle_bool clientY (visibleBottom p el)
  | None => true
  end.

(** Every [updatePointerY] of the history [evs], run from [s], is
    called with the pointer within the bounds of its target. *)
Fixpoint pointersWithin (evs : list Event) (s : State) : bool :=
  match evs with
  | [] => true
  | ev :: rest =>
      match ev with
      | PointerY p clientY => pointerWithin p clientY s
      | _ => true
      end
      && pointersWithin rest (step s ev)
  end.

(** ** Sessions on the platform *)

(** The handle and the listener of a running session are the only
    pending frame and the only wheel listener; without a session there
    is neither. *)
Definition consistent (s : State) : Prop :=
  match cleanup s with
  | Some blockWheel =>
      wheel s = [blockWheel]
      /\ exists h, rafRef s = Some h /\ frames s = [h]
  | None => wheel s = [] /\ rafRef s = None /\ frames s = []
  end.

(** ** Examples *)

(** *** Pages used as examples *)

Definition html : HTMLElement := Element 0 None.
Definition bodyEl : HTMLElement := Element 1 (Some html).
Definition contentEl : HTMLElement := Element 2 (Some bodyEl).
Definition listEl : HTMLElement := Element 3 (Some contentEl).
Definition itemEl : HTMLElement := Element 4 (Some listEl).

(** An element that is not attached to the document. *)
Definition detachedEl : HTMLElement := Element 7 None.

(** A standards-mode page, 1000px high, whose [#content] fits the
    viewport: the document scrolls. *)
Definition docPage : Page :=
  {| body := Some bodyEl;
     documentElement := Some html;
     scrollingElement := Some html;
     content := Some contentEl;
     innerHeight := 1000;
     overflowY := fun _ => "visible"%string;
     scrollHeight := fun _ => 1000;
     clientHeight := fun _ => 1000;
     rectTop := fun _ => 0;
     rectBottom := fun _ => 1000 |}.

(** A page whose [#content] is itself a scroll container, shown from
    y = 100 to y = 700 with 3000px of content. *)
Definition panePage : Page :=
  {| body := Some bodyEl;
     documentElement := Some html;
     scrollingElement := Some html;
     content := Some contentEl;
     innerHeight := 1000;
     overflowY := fun i => if Nat.eqb i 2 then "auto"%string else "visible"%string;
     scrollHeight := fun i => if Nat.eqb i 2 then 3000 else 1000;
     clientHeight := fun i => if Nat.eqb i 2 then 600 else 1000;
     rectTop := fun i => if Nat.eqb i 2 then 100 else 0;
     rectBottom := fun i => if Nat.eqb i 2 then 700 else 1000 |}.

(** A page whose [#content] is a scroll container only 100px high,
    shown from y = 100 to y = 200. *)
Definition smallPanePage : Page :=
  {| body := Some bodyEl;
     documentElement := Some html;
     scrollingElement := Some html;
     content := Some contentEl;
     innerHeight := 1000;
     overflowY := fun i => if Nat.eqb i 2 then "scroll"%string else "visible"%string;
     scrollHeight := fun i => if Nat.eqb i 2 then 3000 else 1000;
     clientHeight := fun i => if Nat.eqb i 2 then 100 else 1000;
     rectTop := fun i => if Nat.eqb i 2 then 100 else 0;
     rectBottom := fun i => if Nat.eqb i 2 then 200 else 1000 |}.

(** A quirks-mode page: html and body both have [overflow: scroll], so
    the body is potentially scrollable and [document.scrollingElement]
    is null; the content fits, so nothing overflows. *)
Definition quirksPage : Page :=
  {| body := Some bodyEl;
     documentElement := Some html;
     scrollingElement := None;
     content := Some contentEl;
     innerHeight := 600;
     overflowY := fun i => if Nat.leb i 1 then "scroll"%string else "visible"%string;
     scrollHeight := fun _ => 600;
     clientHeight := fun _ => 600;
     rectTop := fun _ => 0;
     rectBottom := fun _ => 600 |}.

(** A page whose [#content] is not mounted and that has no scrolling
    element. *)
Definition emptyPage : Page :=
  {| body := None;
     documentElement := None;
     scrollingElement := None;
     content := None;
     innerHeight := 600;
     overflowY := fun _ => "visible"%string;
     scrollHeight := fun _ => 0;
     clientHeight := fun _ => 0;
     rectTop := fun _ => 0;
     rectBottom := fun _ => 0 |}.

(** *** States used as examples *)

(** Every element scrolled down by 300px. *)
Definition startOffsets : nat -> Q := fun _ => 300.

(** A drag over [panePage] with the pointer on the top edge of the pane. *)
Definition paneAtTopEdge : State :=
  run [Render true; DragState panePage true; PointerY panePage 100]
      (mount startOffsets).

(** A drag over [docPage] with the pointer in the middle of the viewport. *)
Definition docIdle : State :=
  run [Render true; DragState docPage true; PointerY docPage 500]
      (mount startOffsets).

(** A drag over [smallPanePage], no pointer position reported yet. *)
Definition smallPane : State :=
  run [Render true; DragState smallPanePage true] (mount startOffsets).

(** ** The speed in binary64 *)

(** The arithmetic of [updatePointerY] on IEEE 754 double-precision
    numbers, as JavaScript evaluates it, to run the source on the
    inputs at which the exact model refutes a statement. *)
Module Binary64.

Definition prec : Z := 53%Z.
Definition emax : Z := 1024%Z.

Definition ofZ (z : Z) : spec_float := binary_normalize prec emax z 0%Z false.

(** [m * 2^e] *)
Definition dyadic (m e : Z) : spec_float := binary_normalize prec emax m e false.

(** The value assigned to [speedRef.current] for a target of visible
    bounds [top] and [bottom]. *)
Definition speed (top bottom clientY : spec_float) : spec_float :=
  let threshold := ofZ 100 in
  let maxSpeed := ofZ 15 in
  let distFromTop := SFsub prec emax clientY top in
  let distFromBottom := SFsub prec emax bottom clientY in
  if SFltb distFromTop threshold then
    let ratio := SFsub prec emax (ofZ 1) (SFdiv prec emax distFromTop threshold) in
    SFmul prec emax (SFmul prec emax (SFopp maxSpeed) ratio) ratio
  else if SFltb distFromBottom threshold then
    let ratio :=
      SFsub prec emax (ofZ 1) (SFdiv prec emax distFromBottom threshold) in
    SFmul prec emax (SFmul prec emax maxSpeed ratio) ratio
  else
    ofZ 0.

End Binary64.

(** ** Histories that leave the drag state alone *)

Definition keepsDragState (ev : Event) : bool :=
  match ev with
  | DragState _ _ => false
  | _ => true
  end.

(** No event of [evs] runs the effect. *)
Definition noDragState (evs : list Event) : bool := forallb keepsDragState evs.



(** [n] animation frames in a row. *)
Definition framesInRow (n : nat) : list Event := repeat AnimationFrame n.

(** A standards-mode page whose [#content] is not mounted. *)
Definition unmountedPage : Page :=
  {| body := Some bodyEl;
     documentElement := Some html;
     scrollingElement := Some html;
     content := None;
     innerHeight := 1000;
     overflowY := fun _ => "visible"%string;
     scrollHeight := fun _ => 1000;
     clientHeight := fun _ => 1000;
     rectTop := fun _ => 0;
     rectBottom := fun _ => 1000 |}.

(** [docPage] scrolled: the same document and viewport, the bounding
    rectangles of its elements moved up by 250px. *)
Definition docPageScrolled : Page :=
  {| body := Some bodyEl;
     documentElement := Some html;
     scrollingElement := Some html;
     content := Some contentEl;
     innerHeight := 1000;
     overflowY := fun _ => "visible"%string;
     scrollHeight := fun _ => 1000;
     clientHeight := fun _ => 1000;
     rectTop := fun _ => - (250);
     rectBottom := fun _ => 750 |}.

(** ** Numbers *)

Lemma Qltb_lt (x y : Q) : Qltb x y = true <-> x < y.
Proof.
  unfold Qltb. rewrite negb_true_iff.
  split; intro H.
  - apply Qnot_le_lt. intro Hle. apply Qle_bool_iff in Hle. congruence.
  - destruct (Qle_bool y x) eqn:E; [|reflexivity].
    apply Qle_bool_iff in E. exfalso. apply (Qlt_not_le _ _ H E).
Qed.

Lemma Qltb_ge (x y : Q) : Qltb x y = false <-> y <= x.
Proof.
  unfold Qltb. rewrite negb_false_iff. apply Qle_bool_iff.
Qed.

(** ** Resolver *)

Lemma walk_firstStop (p : Page) (e : HTMLElement) :
  walk p e =
  match firstStop p (Some e) with
  | Some c =>
      if isDocRoot p c then nullish (scrollingElement p) (Some c) else Some c
  | None => scrollingElement p
  end.
Proof.
  unfold firstStop, chainOf.
  induction e as [i | i up IH] using HTMLElement_chain_ind.
  - cbn [walk chain find]. unfold stops.
    destruct (isDocRoot p (Element i None)) eqn:Hroot; cbn [orb].
    + rewrite Hroot. reflexivity.
    + destruct (scrollable p (Element i None)) eqn:Hs.
      * rewrite Hroot. reflexivity.
      * destruct (scrollingElement p); reflexivity.
  - cbn [walk chain find]. unfold stops at 1.
    destruct (isDocRoot p (Element i (Some up))) eqn:Hroot; cbn [orb].
    + rewrite Hroot. reflexivity.
    + destruct (scrollable p (Element i (Some up))) eqn:Hs.
      * rewrite Hroot. reflexivity.
      * exact IH.
Qed.

Lemma findScrollableAncestor_firstStop (p : Page) (el : option HTMLElement) :
  findScrollableAncestor p el =
  match firstStop p el with
  | Some c =>
      if isDocRoot p c then nullish (scrollingElement p) (Some c) else Some c
  | None => scrollingElement p
  end.
Proof.
  destruct el as [e|].
  - apply walk_firstStop.
  - unfold firstStop. cbn. destruct (scrollingElement p); reflexivity.
Qed.

Lemma firstStop_none (p : Page) (el : option HTMLElement) :
  firstStop p el = None <->
  forall c, In c (chainOf el) -> isDocRoot p c = false /\ scrollable p c = false.
Proof.
  unfold firstStop. split.
  - intros H c Hc. apply orb_false_elim.
    exact (find_none (stops p) (chainOf el) H c Hc).
  - intro H. induction (chainOf el) as [|c l IH]; [reflexivity|].
    cbn [find]. unfold stops at 1.
    destruct (H c (or_introl eq_refl)) as [-> ->]. cbn [orb].
    apply IH. intros c' Hc'. apply H. right. exact Hc'.
Qed.

Lemma firstStop_some (p : Page) (el : option HTMLElement) (c : HTMLElement) :
  firstStop p el = Some c ->
  In c (chainOf el) /\ (isDocRoot p c = true \/ scrollable p c = true).
Proof.
  unfold firstStop. intro H. apply find_some in H. destruct H as [Hin Hs].
  split; [exact Hin|]. apply orb_prop. exact Hs.
Qed.

(** C3 (as stated, refuted): on the quirks-mode page no candidate of the
    chain from [#content] is scrollable and the document has no
    scrolling element, yet the result is the body element, not null. *)
Lemma findScrollableAncestor_quirks_not_null :
  scrollingElement quirksPage = None
  /\ (forall c, In c (chainOf (content quirksPage)) ->
        scrollable quirksPage c = false)
  /\ findScrollableAncestor quirksPage (content quirksPage) = Some bodyEl
  /\ findScrollableAncestor quirksPage (content quirksPage) <> None.
Proof.
  split; [reflexivity|]. split.
  - intros c Hc. cbn in Hc.
    destruct Hc as [<-|[<-|[<-|[]]]]; reflexivity.
  - split; [reflexivity|discriminate].
Qed.

(** C3 (amended): [findScrollableAncestor] returns null exactly when the
    document has no scrolling element and the walk exhausts the chain,
    no candidate being the body or root element or scrollable; when the
    walk reaches the body or root element of a document without
    scrolling element, the result is that element. *)
Theorem findScrollableAncestor_null_iff (p : Page) (el : option HTMLElement) :
  (findScrollableAncestor p el = None <->
   scrollingElement p = None
   /\ forall c, In c (chainOf el) ->
        isDocRoot p c = false /\ scrollable p c = false)
  /\ (forall c, firstStop p el = Some c -> isDocRoot p c = true ->
      scrollingElement p = None ->
      findScrollableAncestor p el = Some c).
Proof.
  rewrite findScrollableAncestor_firstStop. split.
  - rewrite <- firstStop_none.
    destruct (firstStop p el) as [c|].
    + split.
      * destruct (isDocRoot p c), (scrollingElement p); discriminate.
      * intros [_ H]. discriminate.
    + split; [intro H; split; [exact H|reflexivity] | intros [H _]; exact H].
  - intros c -> -> ->. reflexivity.
Qed.

Lemma findScrollableAncestor_null_iff_witness :
  scrollingElement quirksPage = None
  /\ (forall c, In c (chainOf (Some detachedEl)) ->
       isDocRoot quirksPage c = false /\ scrollable quirksPage c = false)
  /\ findScrollableAncestor quirksPage (Some detachedEl) = None.
Proof.
  assert (H : forall c, In c (chainOf (Some detachedEl)) ->
     isDocRoot quirksPage c = false /\ scrollable quirksPage c = false).
  { intros c Hc. cbn in Hc. destruct Hc as [<-|[]]. split; reflexivity. }
  split; [reflexivity|]. split; [exact H|].
  apply (findScrollableAncestor_null_iff quirksPage (Some detachedEl)).
  split; [reflexivity|exact H].
Defined.

(** C4 (as stated, refuted): the chain from [#content] of the
    quirks-mode page has no scrollable candidate, but the result is not
    the document's scrolling element (which is null), and differs from
    what the algorithm of the specification yields. *)
Lemma findScrollableAncestor_quirks_not_scrollingElement :
  (forall c, In c (chain contentEl) -> scrollable quirksPage c = false)
  /\ findScrollableAncestor quirksPage (Some contentEl)
     <> scrollingElement quirksPage
  /\ findScrollableAncestor quirksPage (Some contentEl)
     <> resolve_spec quirksPage (Some contentEl).
Proof.
  split.
  - intros c Hc. cbn in Hc.
    destruct Hc as [<-|[<-|[<-|[]]]]; reflexivity.
  - split; discriminate.
Qed.

(** C4 (amended): [findScrollableAncestor] returns the closest
    candidate, starting from the element itself, that is the body or
    root element or is scrollable (overflow-y [auto] or [scroll] and
    [scrollHeight > clientHeight]); a body or root element is mapped to
    the document's scrolling element when there is one and to itself
    otherwise; an exhausted walk yields the scrolling element, or null.
    So the result is that of the specification's algorithm whenever the
    document has a scrolling element; for a chain A -> B -> ... with A
    not scrollable and B scrollable, neither being body or root, the
    result from A is B; and for a chain that has no scrollable
    candidate, in a document with a scrolling element, the result is
    that scrolling element. *)
Theorem findScrollableAncestor_closest (p : Page) (el : option HTMLElement) :
  findScrollableAncestor p el =
    match firstStop p el with
    | Some c =>
        if isDocRoot p c then nullish (scrollingElement p) (Some c)
        else Some c
    | None => scrollingElement p
    end
  /\ (scrollingElement p <> None ->
      findScrollableAncestor p el = resolve_spec p el)
  /\ (forall a b up,
      el = Some (Element a (Some (Element b up))) ->
      stops p (Element a (Some (Element b up))) = false ->
      isDocRoot p (Element b up) = false ->
      scrollable p (Element b up) = true ->
      findScrollableAncestor p el = Some (Element b up))
  /\ (scrollingElement p <> None ->
      (forall c, In c (chainOf el) -> scrollable p c = false) ->
      findScrollableAncestor p el = scrollingElement p).
Proof.
  split; [apply findScrollableAncestor_firstStop|]. split; [|split].
  - intro Hse. rewrite findScrollableAncestor_firstStop. unfold resolve_spec.
    destruct (firstStop p el) as [c|]; [|reflexivity].
    destruct (isDocRoot p c); [|reflexivity].
    destruct (scrollingElement p); [reflexivity|contradiction].
  - intros a b up -> Ha Hb Hs. unfold stops in Ha.
    apply orb_false_elim in Ha. destruct Ha as [Ha1 Ha2].
    cbn [findScrollableAncestor walk]. rewrite Ha1, Ha2.
    cbn [parentElement]. destruct up; cbn [walk]; rewrite Hb, Hs; reflexivity.
  - intros Hse Hns. rewrite findScrollableAncestor_firstStop.
    destruct (firstStop p el) as [c|] eqn:Hc; [|reflexivity].
    apply firstStop_some in Hc. destruct Hc as [Hin [Hr|Hs]].
    + rewrite Hr. destruct (scrollingElement p); [reflexivity|contradiction].
    + rewrite (Hns c Hin) in Hs. discriminate.
Qed.

Lemma findScrollableAncestor_closest_witness :
  findScrollableAncestor panePage (Some listEl) = Some contentEl
  /\ findScrollableAncestor docPage (Some itemEl) = scrollingElement docPage.
Proof.
  split.
  - apply (findScrollableAncestor_closest panePage (Some listEl)) with (a := 3%nat);
      reflexivity.
  - apply (findScrollableAncestor_closest docPage (Some itemEl)).
    + discriminate.
    + intros c Hc. cbn in Hc.
      destruct Hc as [<-|[<-|[<-|[<-|[<-|[]]]]]]; reflexivity.
Defined.

(** ** Speed from the pointer position *)

Lemma updatePointerY_no_target (p : Page) (clientY : Q) (s : State) :
  containerRef s = None -> updatePointerY p clientY s = s.
Proof.
  intro H. unfold updatePointerY. rewrite H. reflexivity.
Qed.

Lemma Qabs_top_branch (r : Q) :
  Qabs ((- maxSpeed) * r * r) == maxSpeed * (r * r).
Proof.
  assert (H : (- maxSpeed) * r * r == - (maxSpeed * (r * r))) by ring.
  rewrite H, Qabs_opp. apply Qabs_pos. unfold maxSpeed. nra.
Qed.

Lemma Qabs_bottom_branch (r : Q) :
  Qabs (maxSpeed * r * r) == maxSpeed * (r * r).
Proof.
  assert (H : maxSpeed * r * r == maxSpeed * (r * r)) by ring.
  rewrite H. apply Qabs_pos. unfold maxSpeed. nra.
Qed.

Lemma ratio_grows (d1 d2 : Q) :
  d2 < d1 -> d1 < 100 ->
  maxSpeed * ((1 - d1 / threshold) * (1 - d1 / threshold))
  <= maxSpeed * ((1 - d2 / threshold) * (1 - d2 / threshold)).
Proof.
  intros H21 H1. unfold maxSpeed, threshold.
  assert (E1 : 1 - d1 / 100 == (100 - d1) * (1 # 100)) by field.
  assert (E2 : 1 - d2 / 100 == (100 - d2) * (1 # 100)) by field.
  rewrite E1, E2. nra.
Qed.

Lemma eased_in_range (d : Q) :
  0 <= d -> d < 100 ->
  (- (15) <= - (15) * (1 - d / 100) * (1 - d / 100) <= 15)
  /\ (- (15) <= 15 * (1 - d / 100) * (1 - d / 100) <= 15).
Proof.
  intros H0 H1.
  assert (Er : 1 - d / 100 == (100 - d) * (1 # 100)) by field.
  rewrite Er. set (r := (100 - d) * (1 # 100)).
  assert (Hr0 : 0 <= r) by (unfold r; lra).
  assert (Hr1 : r <= 1) by (unfold r; lra).
  assert (Hsq0 : 0 <= r * r) by nra.
  assert (Hsq1 : r * r <= 1) by nra.
  repeat split; nra.
Qed.

Section ActiveTarget.

(** A hook whose stored target is [el], on the page [p]. *)
Variable p : Page.
Variable s : State.
Variable el : HTMLElement.
Hypothesis target : containerRef s = Some el.

Local Abbreviation dT := (distFromTop p el).
Local Abbreviation dB := (distFromBottom p el).

(** The three branches of [updatePointerY], by the tests that select
    them. *)
Lemma updatePointerY_cases (clientY : Q) :
  (dT clientY < 100 /\
   updatePointerY p clientY s =
     with_speedRef ((- maxSpeed) * (1 - dT clientY / threshold)
                    * (1 - dT clientY / threshold)) s)
  \/ (100 <= dT clientY /\ dB clientY < 100 /\
      updatePointerY p clientY s =
        with_speedRef (maxSpeed * (1 - dB clientY / threshold)
                       * (1 - dB clientY / threshold)) s)
  \/ (100 <= dT clientY /\ 100 <= dB clientY /\
      updatePointerY p clientY s = with_speedRef 0 s).
Proof.
  unfold updatePointerY. rewrite target. cbv zeta.
  change (clientY
          - (if same el (body p) || same el (documentElement p)
             then 0 else rectTop p (nodeId el)))
    with (dT clientY).
  change ((if same el (body p) || same el (documentElement p)
           then innerHeight p else rectBottom p (nodeId el))
          - clientY)
    with (dB clientY).
  destruct (Qltb (dT clientY) threshold) eqn:HT.
  - left. apply Qltb_lt in HT. split; [exact HT|reflexivity].
  - right. apply Qltb_ge in HT.
    destruct (Qltb (dB clientY) threshold) eqn:HB.
    + left. apply Qltb_lt in HB. repeat split; assumption.
    + right. apply Qltb_ge in HB. repeat split; assumption.
Qed.

(** C1: with an active target, [updatePointerY] sets the speed to
    [-15 * (1 - distFromTop/100)^2] if [distFromTop < 100], otherwise to
    [15 * (1 - distFromBottom/100)^2] if [distFromBottom < 100],
    otherwise to 0; when both distances are below 100 the top-edge
    branch is the one taken. *)
Theorem updatePointerY_speed (clientY : Q) :
  let dTop := clientY - visibleTop p el in
  let dBottom := visibleBottom p el - clientY in
  let speed := speedRef (updatePointerY p clientY s) in
  (dTop < 100 -> speed == - (15) * (1 - dTop / 100) ^ 2)
  /\ (~ dTop < 100 -> dBottom < 100 ->
      speed == 15 * (1 - dBottom / 100) ^ 2)
  /\ (~ dTop < 100 -> ~ dBottom < 100 -> speed == 0)
  /\ (dTop < 100 -> dBottom < 100 ->
      speed == - (15) * (1 - dTop / 100) ^ 2).
Proof.
  intros distT distB speed.
  change distT with (dT clientY). change distB with (dB clientY).
  assert (Htop : dT clientY < 100 ->
                 speed == - (15) * (1 - dT clientY / 100) ^ 2).
  { intro HT.
    destruct (updatePointerY_cases clientY) as [[_ E]|[[H _]|[H _]]];
      try (exfalso; apply (Qlt_not_le _ _ HT); exact H).
    unfold speed. rewrite E. cbn [speedRef with_speedRef].
    unfold maxSpeed, threshold. field. }
  split; [exact Htop|]. split; [|split].
  - intros HnT HB.
    destruct (updatePointerY_cases clientY)
      as [[H _]|[[_ [_ E]]|[_ [H _]]]].
    + contradiction.
    + unfold speed. rewrite E. cbn [speedRef with_speedRef].
      unfold maxSpeed, threshold. field.
    + exfalso. apply (Qlt_not_le _ _ HB). exact H.
  - intros HnT HnB.
    destruct (updatePointerY_cases clientY)
      as [[H _]|[[_ [H _]]|[_ [_ E]]]].
    + contradiction.
    + contradiction.
    + unfold speed. rewrite E. reflexivity.
  - intros HT _. exact (Htop HT).
Qed.

(** C5: with an active target, a pointer strictly between [top + 100]
    and [bottom - 100] sets the speed to 0. *)
Theorem updatePointerY_dead_zone (clientY : Q) :
  visibleTop p el + 100 < clientY ->
  clientY < visibleBottom p el - 100 ->
  speedRef (updatePointerY p clientY s) = 0.
Proof.
  intros Hlo Hhi.
  destruct (updatePointerY_cases clientY) as [[H _]|[[_ [H _]]|[_ [_ E]]]].
  - unfold distFromTop in H. lra.
  - unfold distFromBottom in H. lra.
  - rewrite E. reflexivity.
Qed.

(** C6 (amended): for two pointer positions against the same active
    target, if the second is strictly closer to the top edge and the
    first is not in the bottom-edge branch, or the second is strictly
    closer to the bottom edge and the first is not in the top-edge
    branch, then the absolute value of the speed computed for the second
    is at least that computed for the first. *)
Theorem speed_monotone (y1 y2 : Q) :
  (distFromTop p el y2 < distFromTop p el y1
   /\ (distFromTop p el y1 < 100 \/ 100 <= distFromBottom p el y1))
  \/ (distFromBottom p el y2 < distFromBottom p el y1
      /\ 100 <= distFromTop p el y1) ->
  Qabs (speedRef (updatePointerY p y1 s))
  <= Qabs (speedRef (updatePointerY p y2 s)).
Proof.
  intro Hcloser.
  destruct (updatePointerY_cases y1)
    as [[HT1 E1]|[[HT1 [HB1 E1]]|[HT1 [HB1 E1]]]];
    rewrite E1; cbn [speedRef with_speedRef].
  - (* the first position is in the top-edge branch *)
    destruct Hcloser as [[H21 _]|[_ H]]; [|lra].
    destruct (updatePointerY_cases y2) as [[HT2 E2]|[[HT2 _]|[HT2 _]]];
      try lra.
    rewrite E2. cbn [speedRef with_speedRef].
    rewrite !Qabs_top_branch. apply ratio_grows; assumption.
  - (* the first position is in the bottom-edge branch *)
    destruct Hcloser as [[_ [H|H]]|[H21 _]]; try lra.
    destruct (updatePointerY_cases y2)
      as [[HT2 _]|[[_ [HB2 E2]]|[_ [HB2 _]]]];
      unfold distFromTop, distFromBottom in *; try lra.
    rewrite E2. cbn [speedRef with_speedRef].
    rewrite !Qabs_bottom_branch. apply ratio_grows; assumption.
  - (* the first position is in the dead zone *)
    apply Qabs_nonneg.
Qed.


End ActiveTarget.

Lemma updatePointerY_speed_witness :
  containerRef paneAtTopEdge = Some contentEl
  /\ speedRef (updatePointerY panePage 150 paneAtTopEdge)
     == - (15) * (1 - (150 - visibleTop panePage contentEl) / 100) ^ 2.
Proof.
  split; [reflexivity|].
  exact (proj1 (updatePointerY_speed panePage paneAtTopEdge contentEl
                  eq_refl 150) eq_refl).
Defined.

Lemma updatePointerY_dead_zone_witness :
  containerRef paneAtTopEdge = Some contentEl
  /\ visibleTop panePage contentEl + 100 < 400
  /\ 400 < visibleBottom panePage contentEl - 100
  /\ speedRef (updatePointerY panePage 400 paneAtTopEdge) = 0.
Proof.
  split; [reflexivity|]. split; [reflexivity|]. split; [reflexivity|].
  apply (updatePointerY_dead_zone panePage paneAtTopEdge contentEl eq_refl 400);
    reflexivity.
Defined.

Lemma speed_monotone_witness :
  containerRef paneAtTopEdge = Some contentEl
  /\ distFromTop panePage contentEl 110 < distFromTop panePage contentEl 150
  /\ Qabs (speedRef (updatePointerY panePage 150 paneAtTopEdge))
     <= Qabs (speedRef (updatePointerY panePage 110 paneAtTopEdge)).
Proof.
  split; [reflexivity|]. split; [reflexivity|].
  apply (speed_monotone panePage paneAtTopEdge contentEl eq_refl 150 110).
  left. split; [reflexivity|]. left. reflexivity.
Defined.

(** C6 (as stated, refuted): over the document scroller of a viewport
    1000px high, the pointer at y = 500 is strictly closer to the top
    edge than at y = 950, yet the speed computed there has the smaller
    absolute value: 0 against 3.75. *)
Lemma speed_drops_when_leaving_bottom_edge :
  containerRef docIdle = Some html
  /\ distFromTop docPage html 500 < distFromTop docPage html 950
  /\ Qabs (speedRef (updatePointerY docPage 950 docIdle)) == 15 # 4
  /\ Qabs (speedRef (updatePointerY docPage 500 docIdle)) == 0
  /\ ~ (Qabs (speedRef (updatePointerY docPage 950 docIdle))
        <= Qabs (speedRef (updatePointerY docPage 500 docIdle))).
Proof.
  repeat split; try reflexivity. vm_compute. intro H. apply H. reflexivity.
Qed.

(** The same on a target only 100px high, where both edges are within
    the threshold and the top-edge branch is the one taken: from
    y = 190 to y = 195 the pointer gets closer to the bottom edge, and
    to the nearest edge, yet the absolute value of the speed drops from
    0.15 to 0.0375. *)
Lemma speed_drops_in_small_target :
  containerRef smallPane = Some contentEl
  /\ distFromBottom smallPanePage contentEl 195
     < distFromBottom smallPanePage contentEl 190
  /\ Qabs (speedRef (updatePointerY smallPanePage 190 smallPane)) == 3 # 20
  /\ Qabs (speedRef (updatePointerY smallPanePage 195 smallPane)) == 3 # 80
  /\ ~ (Qabs (speedRef (updatePointerY smallPanePage 190 smallPane))
        <= Qabs (speedRef (updatePointerY smallPanePage 195 smallPane))).
Proof.
  repeat split; try reflexivity. vm_compute. intro H. apply H. reflexivity.
Qed.

(** ** Range of the speed *)

Lemma speedRef_cancelPending (s : State) :
  speedRef (cancelPending s) = speedRef s.
Proof.
  unfold cancelPending. destruct (rafRef s); reflexivity.
Qed.

Lemma speedRef_runCleanup (s : State) :
  speedRef (runCleanup s) = speedRef s.
Proof.
  unfold runCleanup. destruct (cleanup s); [|reflexivity].
  cbn [with_cleanup removeEventListener with_wheel speedRef].
  apply speedRef_cancelPending.
Qed.

Lemma speedRef_tick (s : State) : speedRef (tick s) = speedRef s.
Proof.
  unfold tick, callOnScroll, setScrollTop.
  destruct (negb (Qeq_bool (speedRef s) 0)); [|reflexivity].
  destruct (containerRef s); [|reflexivity].
  cbn [with_scrollTop onScrollRef].
  destruct (onScrollRef s); reflexivity.
Qed.

Lemma speedRef_dragStart (p : Page) (s : State) :
  speedRef (dragStart p s) = speedRef s.
Proof.
  unfold dragStart, onDragStateChange, effect. cbn [negb].
  destruct (findScrollableAncestor p (content p));
    cbn; apply speedRef_runCleanup.
Qed.

Lemma speedRef_dragStop (p : Page) (s : State) :
  speedRef (dragStop p s) = 0.
Proof. reflexivity. Qed.

Lemma updatePointerY_within (p : Page) (clientY : Q) (s : State) :
  pointerWithin p clientY s = true ->
  - maxSpeed <= speedRef s <= maxSpeed ->
  - maxSpeed <= speedRef (updatePointerY p clientY s) <= maxSpeed.
Proof.
  unfold pointerWithin. intros Hin Hs.
  destruct (containerRef s) as [el|] eqn:Hel.
  - apply andb_prop in Hin. destruct Hin as [Hlo Hhi].
    apply Qle_bool_iff in Hlo. apply Qle_bool_iff in Hhi.
    destruct (updatePointerY_cases p s el Hel clientY)
      as [[HT E]|[[HT [HB E]]|[HT [HB E]]]];
      rewrite E; cbn [speedRef with_speedRef];
      unfold distFromTop, distFromBottom in *; unfold maxSpeed, threshold.
    + apply eased_in_range; lra.
    + apply eased_in_range; lra.
    + split; lra.
  - rewrite updatePointerY_no_target by exact Hel. exact Hs.
Qed.

Lemma run_within (evs : list Event) (s : State) :
  pointersWithin evs s = true ->
  - maxSpeed <= speedRef s <= maxSpeed ->
  - maxSpeed <= speedRef (run evs s) <= maxSpeed.
Proof.
  revert s. induction evs as [|ev rest IH]; intros s Hin Hs.
  - exact Hs.
  - cbn [pointersWithin] in Hin. apply andb_prop in Hin.
    destruct Hin as [Hev Hrest].
    change (run (ev :: rest) s) with (run rest (step s ev)).
    apply IH; [exact Hrest|].
    destruct ev as [onScroll | p [|] | p clientY | | ]; cbn [step].
    + exact Hs.
    + fold (dragStart p s). rewrite speedRef_dragStart. exact Hs.
    + fold (dragStop p s). rewrite speedRef_dragStop. unfold maxSpeed. lra.
    + apply updatePointerY_within; assumption.
    + destruct (frames s); [exact Hs|]. rewrite speedRef_tick. exact Hs.
    + unfold teardown. rewrite speedRef_runCleanup. exact Hs.
Qed.

(** C2 (as stated, refuted): a drag starts over the pane of [panePage],
    whose visible top is y = 100, and the pointer is reported at y = 0,
    above the pane: the speed becomes -60, outside [-15, 15]. *)
Lemma speed_exceeds_maxSpeed_above_target :
  speedRef (run [DragState panePage true; PointerY panePage 0]
                (mount startOffsets)) == - (60)
  /\ ~ (- maxSpeed
        <= speedRef (run [DragState panePage true; PointerY panePage 0]
                         (mount startOffsets))
        <= maxSpeed).
Proof.
  split; [reflexivity|].
  intros [H _]. vm_compute in H. apply H. reflexivity.
Qed.

(** C2 (amended): after any sequence of renders, drag-state changes,
    frames, teardown and [updatePointerY] calls in which every
    [updatePointerY] made while a target is stored is given a [clientY]
    within the visible bounds [top, bottom] of that target, the speed
    lies in [-maxSpeed, maxSpeed], that is [-15, 15]. *)
Theorem speed_in_range (offsets : nat -> Q) (evs : list Event) :
  pointersWithin evs (mount offsets) = true ->
  - maxSpeed <= speedRef (run evs (mount offsets)) <= maxSpeed.
Proof.
  intro Hin. apply run_within; [exact Hin|].
  cbn [mount speedRef]. unfold maxSpeed. lra.
Qed.

Lemma speed_in_range_witness :
  pointersWithin
    [Render true; DragState panePage true; PointerY panePage 100;
     AnimationFrame; PointerY panePage 690; DragState panePage false]
    (mount startOffsets) = true
  /\ - maxSpeed
     <= speedRef
          (run [Render true; DragState panePage true; PointerY panePage 100;
                AnimationFrame; PointerY panePage 690;
                DragState panePage false]
               (mount startOffsets))
     <= maxSpeed.
Proof.
  split; [reflexivity|].
  apply (speed_in_range startOffsets
           [Render true; DragState panePage true; PointerY panePage 100;
            AnimationFrame; PointerY panePage 690; DragState panePage false]).
  reflexivity.
Defined.

(** ** Frame step *)

Lemma speed_zero_iff (s : State) :
  negb (Qeq_bool (speedRef s) 0) = false <-> speedRef s == 0.
Proof.
  rewrite negb_false_iff. apply Qeq_bool_iff.
Qed.

Lemma speed_nonzero_iff (s : State) :
  negb (Qeq_bool (speedRef s) 0) = true <-> ~ speedRef s == 0.
Proof.
  rewrite negb_true_iff. split.
  - intros H E. apply Qeq_bool_iff in E. congruence.
  - intro H. destruct (Qeq_bool (speedRef s) 0) eqn:E; [|reflexivity].
    apply Qeq_bool_iff in E. contradiction.
Qed.

Lemma app_one_neq {A : Type} (l : list A) (x : A) : l ++ [x] <> l.
Proof.
  intro H. apply (f_equal (@List.length A)) in H.
  rewrite length_app in H. cbn in H. lia.
Qed.

(** Every frame step requests the next frame and stores its handle. *)
Lemma tick_reschedules (s : State) :
  rafRef (tick s) = Some (nextFrame s)
  /\ frames (tick s) = frames s ++ [nextFrame s].
Proof.
  unfold tick, callOnScroll, setScrollTop.
  destruct (negb (Qeq_bool (speedRef s) 0)); [|split; reflexivity].
  destruct (containerRef s); [|split; reflexivity].
  cbn [with_scrollTop onScrollRef].
  destruct (onScrollRef s); split; reflexivity.
Qed.

(** C8: a frame step with a non-zero speed and a stored target adds the
    speed to the scroll offset of the target, leaves every other offset
    as it was, and calls the observer, when there is one, with the new
    offset; and every frame step, whatever the speed, schedules the
    next frame and stores its handle. *)
Theorem tick_applies_speed (s : State) :
  (rafRef (tick s) = Some (nextFrame s)
   /\ frames (tick s) = frames s ++ [nextFrame s])
  /\ (forall el,
      ~ speedRef s == 0 -> containerRef s = Some el ->
      scrollTop (tick s) (nodeId el) = scrollTop s (nodeId el) + speedRef s
      /\ (forall i, i <> nodeId el -> scrollTop (tick s) i = scrollTop s i)
      /\ (onScrollRef s = true ->
          observed (tick s)
          = observed s ++ [scrollTop (tick s) (nodeId el)])
      /\ (onScrollRef s = false -> observed (tick s) = observed s)).
Proof.
  split; [apply tick_reschedules|].
  intros el Hspeed Hel. apply speed_nonzero_iff in Hspeed.
  unfold tick, callOnScroll, setScrollTop. rewrite Hspeed, Hel.
  cbn [with_scrollTop onScrollRef scrollTop].
  rewrite Nat.eqb_refl.
  destruct (onScrollRef s); cbn; rewrite Nat.eqb_refl;
    (split; [reflexivity|]);
    (split; [intros i Hi; apply Nat.eqb_neq in Hi; rewrite Hi; reflexivity|]);
    split; intro H; try discriminate H; reflexivity.
Qed.

Lemma tick_applies_speed_witness :
  ~ speedRef paneAtTopEdge == 0
  /\ containerRef paneAtTopEdge = Some contentEl
  /\ scrollTop (tick paneAtTopEdge) (nodeId contentEl)
     = scrollTop paneAtTopEdge (nodeId contentEl) + speedRef paneAtTopEdge.
Proof.
  assert (H : ~ speedRef paneAtTopEdge == 0) by (intro H; discriminate H).
  split; [exact H|]. split; [reflexivity|].
  exact (proj1 (proj2 (tick_applies_speed paneAtTopEdge) contentEl H eq_refl)).
Defined.

(** C10: a frame step with speed 0, or without a stored target, leaves
    the scroll offset of every element as it was and does not call the
    observer; with an observer present, the observer is called on a
    frame step if and only if the speed is non-zero and a target is
    stored, and then exactly once. *)
Theorem tick_idle (s : State) :
  (speedRef s == 0 \/ containerRef s = None ->
   scrollTop (tick s) = scrollTop s /\ observed (tick s) = observed s)
  /\ (onScrollRef s = true ->
      (observed (tick s) <> observed s <->
       ~ speedRef s == 0 /\ containerRef s <> None))
  /\ (observed (tick s) <> observed s ->
      exists v, observed (tick s) = observed s ++ [v]).
Proof.
  unfold tick, callOnScroll, setScrollTop.
  destruct (negb (Qeq_bool (speedRef s) 0)) eqn:Hspeed.
  - apply speed_nonzero_iff in Hspeed.
    destruct (containerRef s) as [el|].
    + cbn [with_scrollTop onScrollRef scrollTop].
      destruct (onScrollRef s); cbn.
      * split; [intros [H|H]; [contradiction|discriminate]|].
        split.
        -- intros _. split.
           ++ intros _. split; [exact Hspeed|discriminate].
           ++ intros _. apply app_one_neq.
        -- intros _. eexists. reflexivity.
      * split; [intros [H|H]; [contradiction|discriminate]|].
        split; [discriminate|]. intro H. exfalso. apply H. reflexivity.
    + cbn. split; [intros _; split; reflexivity|].
      split.
      * intros _. split; [intro H; exfalso; apply H; reflexivity|].
        intros [_ H]. exfalso. apply H. reflexivity.
      * intro H. exfalso. apply H. reflexivity.
  - apply speed_zero_iff in Hspeed. cbn.
    split; [intros _; split; reflexivity|].
    split.
    + intros _. split; [intro H; exfalso; apply H; reflexivity|].
      intros [H _]. contradiction.
    + intro H. exfalso. apply H. reflexivity.
Qed.

Lemma tick_idle_witness :
  speedRef docIdle == 0
  /\ scrollTop (tick docIdle) = scrollTop docIdle
  /\ observed (tick docIdle) = observed docIdle.
Proof.
  split; [reflexivity|].
  apply (tick_idle docIdle). left. reflexivity.
Defined.

(** ** Sessions *)

Lemma remove_single (h : nat) : remove Nat.eq_dec h [h] = [].
Proof.
  cbn. destruct (Nat.eq_dec h h) as [_|H]; [reflexivity|contradiction].
Qed.

Lemma consistent_mount (offsets : nat -> Q) : consistent (mount offsets).
Proof. repeat split. Qed.

(** After the cleanup, nothing of a session is left on the platform. *)
Lemma runCleanup_clears (s : State) :
  consistent s ->
  cleanup (runCleanup s) = None
  /\ wheel (runCleanup s) = []
  /\ rafRef (runCleanup s) = None
  /\ frames (runCleanup s) = [].
Proof.
  unfold consistent, runCleanup, cancelPending.
  destruct (cleanup s) as [l|] eqn:Hc.
  - intros [Hw [h [Hr Hf]]]. rewrite Hr.
    cbn. rewrite Hw, Hf, !remove_single. repeat split.
  - intros [Hw [Hr Hf]]. rewrite Hc. repeat split; assumption.
Qed.

Lemma consistent_effect (p : Page) (isDragging : bool) (s : State) :
  cleanup s = None -> wheel s = [] -> rafRef s = None -> frames s = [] ->
  consistent (effect p isDragging s).
Proof.
  intros Hc Hw Hr Hf. unfold effect, consistent.
  destruct isDragging; cbn [negb].
  - destruct (findScrollableAncestor p (content p)); cbn.
    + rewrite Hw, Hf. split; [reflexivity|]. eexists. split; reflexivity.
    + repeat split; assumption.
  - unfold cancelPending. rewrite Hr. cbn. repeat split; assumption.
Qed.

Lemma consistent_tick (s : State) (h : nat) :
  consistent s -> frames s = [h] ->
  consistent (tick (with_frames [] s)).
Proof.
  unfold consistent. intros H Hf.
  destruct (cleanup s) as [l|] eqn:Hc.
  - destruct H as [Hw _].
    unfold tick, callOnScroll, setScrollTop.
    cbn [with_frames speedRef containerRef].
    destruct (negb (Qeq_bool (speedRef s) 0)).
    + destruct (containerRef s); cbn.
      * destruct (onScrollRef s); cbn; rewrite Hc;
          (split; [exact Hw|]); eexists; split; reflexivity.
      * rewrite Hc. split; [exact Hw|]. eexists. split; reflexivity.
    + cbn. rewrite Hc. split; [exact Hw|]. eexists. split; reflexivity.
  - destruct H as [_ [_ H]]. rewrite H in Hf. discriminate.
Qed.

Lemma consistent_updatePointerY (p : Page) (clientY : Q) (s : State) :
  consistent s -> consistent (updatePointerY p clientY s).
Proof.
  intro H. unfold updatePointerY.
  destruct (containerRef s); [|exact H].
  cbv zeta.
  destruct (Qltb _ _); [exact H|]. destruct (Qltb _ _); exact H.
Qed.

Lemma consistent_step (s : State) (ev : Event) :
  consistent s -> consistent (step s ev).
Proof.
  intro H. destruct ev as [onScroll | p b | p clientY | | ]; cbn [step].
  - exact H.
  - destruct (runCleanup_clears s H) as [Hc [Hw [Hr Hf]]].
    apply consistent_effect; assumption.
  - apply consistent_updatePointerY. exact H.
  - destruct (frames s) as [|h rest] eqn:Hf; [exact H|].
    assert (rest = []) as ->.
    { unfold consistent in H. destruct (cleanup s).
      - destruct H as [_ [h' [_ H]]]. congruence.
      - destruct H as [_ [_ H]]. congruence. }
    apply (consistent_tick s h); assumption.
  - destruct (runCleanup_clears s H) as [Hc [Hw [Hr Hf]]].
    unfold teardown, consistent. rewrite Hc. repeat split; assumption.
Qed.

Lemma consistent_run (evs : list Event) (s : State) :
  consistent s -> consistent (run evs s).
Proof.
  revert s. induction evs as [|ev rest IH]; intros s H; [exact H|].
  change (run (ev :: rest) s) with (run rest (step s ev)).
  apply IH, consistent_step, H.
Qed.

(** In a history from a fresh mount a frame is pending exactly while a
    session runs, and it is the one [rafRef] holds. *)
Lemma frame_pending_iff_session (offsets : nat -> Q) (evs : list Event) :
  let s := run evs (mount offsets) in
  (rafRef s <> None <-> cleanup s <> None)
  /\ frames s = match rafRef s with Some h => [h] | None => [] end.
Proof.
  intro s.
  assert (H : consistent s) by apply consistent_run, consistent_mount.
  unfold consistent in H. destruct (cleanup s) as [l|].
  - destruct H as [_ [h [-> ->]]]. repeat split; discriminate.
  - destruct H as [_ [-> ->]]. repeat split; intro H; exact H.
Qed.

(** While a session runs, an animation frame runs [tick], which leaves
    the next frame pending. *)
Lemma frame_runs_tick (offsets : nat -> Q) (evs : list Event) :
  let s := run evs (mount offsets) in
  cleanup s <> None ->
  step s AnimationFrame = tick (with_frames [] s)
  /\ frames (step s AnimationFrame) = [nextFrame s]
  /\ rafRef (step s AnimationFrame) = Some (nextFrame s).
Proof.
  intros s Hc.
  assert (H : consistent s) by apply consistent_run, consistent_mount.
  unfold consistent in H. destruct (cleanup s) as [l|]; [|contradiction].
  destruct H as [_ [h [_ Hf]]]. cbn [step]. rewrite Hf.
  split; [reflexivity|].
  destruct (tick_reschedules (with_frames [] s)) as [Hr Hfr].
  split; [exact Hfr|exact Hr].
Qed.

Lemma runCleanup_idem (s : State) : runCleanup (runCleanup s) = runCleanup s.
Proof.
  unfold runCleanup at 2 3. destruct (cleanup s) eqn:Hc.
  - reflexivity.
  - unfold runCleanup. rewrite Hc. reflexivity.
Qed.

Lemma dragStop_idem (p p' : Page) (s : State) :
  dragStop p' (dragStop p s) = dragStop p s.
Proof.
  unfold dragStop, onDragStateChange, effect. cbn [negb].
  unfold runCleanup at 1. cbn [cleanup with_cleanup].
  unfold cancelPending at 1.
  cbn [rafRef with_cleanup with_containerRef with_speedRef].
  destruct (runCleanup s) as [sp rf cr os cl fr nf wh nl st ob].
  unfold cancelPending. cbn [rafRef].
  destruct rf; reflexivity.
Qed.

(** The transition of [isDragging] to false leaves nothing of a
    session. *)
Lemma dragStop_settles (p : Page) (s : State) :
  consistent s ->
  rafRef (dragStop p s) = None
  /\ frames (dragStop p s) = []
  /\ speedRef (dragStop p s) = 0
  /\ containerRef (dragStop p s) = None
  /\ wheel (dragStop p s) = []
  /\ cleanup (dragStop p s) = None.
Proof.
  intro H. destruct (runCleanup_clears s H) as [Hc [Hw [Hr Hf]]].
  unfold dragStop, onDragStateChange, effect, cancelPending.
  cbn [negb]. rewrite Hr. cbn. rewrite Hw, Hf. repeat split; exact Hr.
Qed.

(** A freshly mounted hook is in the state the transition to false
    leaves. *)
Lemma dragStop_mount (p : Page) (offsets : nat -> Q) :
  dragStop p (mount offsets) = mount offsets.
Proof. reflexivity. Qed.

(** C7 (as stated, refuted): tearing down the hook during a drag with
    the pointer on the top edge of the pane leaves the speed at -15 and
    the target stored. *)
Lemma teardown_keeps_speed_and_target :
  teardown (teardown paneAtTopEdge) = teardown paneAtTopEdge
  /\ speedRef (teardown paneAtTopEdge) == - (15)
  /\ ~ speedRef (teardown paneAtTopEdge) == 0
  /\ containerRef (teardown paneAtTopEdge) = Some contentEl
  /\ containerRef (teardown paneAtTopEdge) <> None.
Proof.
  repeat split; try discriminate.
Qed.

(** C7 (amended): after any history, the transition of [isDragging] to
    false applied twice yields the same state as applied once: no
    pending frame and a null frame handle, speed 0, no stored target,
    no wheel listener.  Teardown is idempotent too and leaves no pending
    frame, a null frame handle and no wheel listener; it leaves the
    speed and the stored target as they were. *)
Theorem dragStop_idempotent (offsets : nat -> Q) (evs : list Event)
    (p p' : Page) :
  let s := run evs (mount offsets) in
  (dragStop p' (dragStop p s) = dragStop p s
   /\ rafRef (dragStop p s) = None
   /\ frames (dragStop p s) = []
   /\ speedRef (dragStop p s) = 0
   /\ containerRef (dragStop p s) = None
   /\ wheel (dragStop p s) = []
   /\ wheelPrevented (dragStop p s) = false)
  /\ (teardown (teardown s) = teardown s
      /\ rafRef (teardown s) = None
      /\ frames (teardown s) = []
      /\ wheel (teardown s) = []
      /\ wheelPrevented (teardown s) = false
      /\ speedRef (teardown s) = speedRef s
      /\ containerRef (teardown s) = containerRef s
      /\ teardown (dragStop p s) = dragStop p s).
Proof.
  intro s.
  assert (H : consistent s) by apply consistent_run, consistent_mount.
  destruct (runCleanup_clears s H) as [Hc [Hw [Hr Hf]]].
  split.
  - split; [apply dragStop_idem|].
    destruct (dragStop_settles p s H) as [Hr' [Hf' [Hs' [Hel' [Hw' _]]]]].
    unfold wheelPrevented. rewrite Hw'. repeat split; assumption.
  - unfold teardown, wheelPrevented. rewrite Hw.
    split; [apply runCleanup_idem|].
    repeat split; try assumption.
    + apply speedRef_runCleanup.
    + unfold runCleanup, cancelPending.
      destruct (cleanup s); [|reflexivity]. destruct (rafRef s); reflexivity.
Qed.

(** C9: when [isDragging] turns true in a stopped hook and the
    resolution of the scroll target yields null, the state is left as
    it was: no frame is pending, the frame handle is null, no wheel
    listener is installed, and every later [updatePointerY] leaves the
    state, and so the speed, unchanged. *)
Theorem dragStart_unresolved (offsets : nat -> Q) (evs : list Event)
    (p0 p : Page) :
  let s := dragStop p0 (run evs (mount offsets)) in
  findScrollableAncestor p (content p) = None ->
  dragStart p s = s
  /\ rafRef (dragStart p s) = None
  /\ frames (dragStart p s) = []
  /\ wheel (dragStart p s) = []
  /\ wheelPrevented (dragStart p s) = false
  /\ (forall p' clientY,
      updatePointerY p' clientY (dragStart p s) = dragStart p s
      /\ speedRef (updatePointerY p' clientY (dragStart p s)) = speedRef s).
Proof.
  intros s Hnull.
  assert (H : consistent (run evs (mount offsets)))
    by apply consistent_run, consistent_mount.
  destruct (dragStop_settles p0 _ H) as [Hr [Hf [_ [Hel [Hw _]]]]].
  fold s in Hr, Hf, Hel, Hw.
  assert (Hp : wheelPrevented s = false)
    by (unfold wheelPrevented; rewrite Hw; reflexivity).
  assert (E : dragStart p s = s).
  { unfold dragStart, onDragStateChange, effect. cbn [negb].
    rewrite Hnull. unfold s, dragStop, onDragStateChange, effect.
    reflexivity. }
  rewrite E. repeat split; try assumption;
    rewrite updatePointerY_no_target by exact Hel; reflexivity.
Qed.

Lemma dragStart_unresolved_witness :
  findScrollableAncestor emptyPage (content emptyPage) = None
  /\ dragStart emptyPage (dragStop panePage paneAtTopEdge)
     = dragStop panePage paneAtTopEdge.
Proof.
  split; [reflexivity|].
  apply (dragStart_unresolved startOffsets
           [Render true; DragState panePage true; PointerY panePage 100]
           panePage emptyPage).
  reflexivity.
Defined.

(** ** The refuting inputs in binary64 *)

(** Pointer at y = 0 over the pane shown from y = 100 to y = 700: the
    double assigned to the speed is -60, below -15. *)
Example binary64_speed_above_target :
  Binary64.speed (Binary64.ofZ 100) (Binary64.ofZ 700) (Binary64.ofZ 0)
  = Binary64.ofZ (-60)
  /\ SFltb (Binary64.ofZ (-60)) (Binary64.ofZ (-15)) = true.
Proof. split; vm_compute; reflexivity. Qed.

(** Pointer at y = 950, then at y = 500, over a viewport 1000px high:
    the doubles assigned to the speed are 3.75, then 0. *)
Example binary64_speed_leaving_bottom_edge :
  Binary64.speed (Binary64.ofZ 0) (Binary64.ofZ 1000) (Binary64.ofZ 950)
  = Binary64.dyadic 15 (-2)
  /\ Binary64.speed (Binary64.ofZ 0) (Binary64.ofZ 1000) (Binary64.ofZ 500)
     = Binary64.ofZ 0.
Proof. split; vm_compute; reflexivity. Qed.

(** ** A drag from start to end *)

(** A drag starts over the pane, whose content overflows; the pointer
    is reported on the top edge of the pane and a frame passes: the
    scroll offset has decreased by 15 and the observer has been told.
    The pointer moves to the dead zone and two frames pass: the offset
    stays.  The drag ends: no frame is pending and a wheel event is no
    longer prevented. *)
Example drag_over_pane :
  let start := [Render true; DragState panePage true] in
  let atEdge := start ++ [PointerY panePage 100; AnimationFrame] in
  let inDeadZone :=
    atEdge ++ [PointerY panePage 400; AnimationFrame; AnimationFrame] in
  let ended := inDeadZone ++ [DragState panePage false] in
  wheelPrevented (run start (mount startOffsets)) = true
  /\ scrollTop (run atEdge (mount startOffsets)) 2%nat == startOffsets 2%nat - 15
  /\ match observed (run atEdge (mount startOffsets)) with
     | [v] => v == startOffsets 2%nat - 15
     | _ => False
     end
  /\ scrollTop (run inDeadZone (mount startOffsets)) 2%nat
     = scrollTop (run atEdge (mount startOffsets)) 2%nat
  /\ observed (run inDeadZone (mount startOffsets))
     = observed (run atEdge (mount startOffsets))
  /\ frames (run inDeadZone (mount startOffsets)) <> []
  /\ frames (run ended (mount startOffsets)) = []
  /\ wheelPrevented (run ended (mount startOffsets)) = false.
Proof.
  cbv zeta.
  repeat (match goal with |- _ /\ _ => split end);
    vm_compute; try reflexivity; discriminate.
Qed.

(** ** What the resolver can return *)

(** X1: A non-null result of [findScrollableAncestor] is the document's
    scrolling element, or one of the candidates of the chain: a
    scrollable one that is neither body nor root, or the body or root
    element of a document without scrolling element. *)
Theorem findScrollableAncestor_result (p : Page) (el : option HTMLElement)
    (r : HTMLElement) :
  findScrollableAncestor p el = Some r ->
  scrollingElement p = Some r
  \/ (In r (chainOf el)
      /\ ((isDocRoot p r = false /\ scrollable p r = true)
          \/ (isDocRoot p r = true /\ scrollingElement p = None))).
Proof.
  rewrite findScrollableAncestor_firstStop.
  destruct (firstStop p el) as [c|] eqn:Hc; [|intro H; left; exact H].
  apply firstStop_some in Hc. destruct Hc as [Hin Hstop].
  destruct (isDocRoot p c) eqn:Hroot.
  - destruct (scrollingElement p) as [se|] eqn:Hse; cbn [nullish]; intro H.
    + left. exact H.
    + injection H as <-. right. split; [exact Hin|]. right.
      split; [exact Hroot|reflexivity].
  - intro H. injection H as <-. right. split; [exact Hin|]. left.
    split; [exact Hroot|]. destruct Hstop as [H|H]; [congruence|exact H].
Qed.

Lemma findScrollableAncestor_result_witness :
  findScrollableAncestor panePage (Some itemEl) = Some contentEl
  /\ (scrollingElement panePage = Some contentEl
      \/ (In contentEl (chainOf (Some itemEl))
          /\ ((isDocRoot panePage contentEl = false
               /\ scrollable panePage contentEl = true)
              \/ (isDocRoot panePage contentEl = true
                  /\ scrollingElement panePage = None)))).
Proof.
  split; [reflexivity|].
  exact (findScrollableAncestor_result panePage (Some itemEl) contentEl
           eq_refl).
Defined.

(** X2: In a document that has a scrolling element the resolution never
    yields null, whatever the starting element, and from a null start
    it yields the scrolling element. *)
Theorem findScrollableAncestor_total (p : Page) (el : option HTMLElement) :
  scrollingElement p <> None ->
  findScrollableAncestor p el <> None
  /\ findScrollableAncestor p None = scrollingElement p.
Proof.
  intro Hse. split.
  - rewrite findScrollableAncestor_firstStop.
    destruct (firstStop p el) as [c|]; [|exact Hse].
    destruct (isDocRoot p c); [|discriminate].
    destruct (scrollingElement p); [discriminate|contradiction].
  - cbn. destruct (scrollingElement p); reflexivity.
Qed.

Lemma findScrollableAncestor_total_witness :
  scrollingElement unmountedPage <> None
  /\ findScrollableAncestor unmountedPage (content unmountedPage) <> None
  /\ findScrollableAncestor unmountedPage None
     = scrollingElement unmountedPage.
Proof.
  assert (H : scrollingElement unmountedPage <> None) by discriminate.
  split; [exact H|].
  exact (findScrollableAncestor_total unmountedPage (content unmountedPage) H).
Defined.

(** ** What updatePointerY touches *)

(** X3: [updatePointerY] changes nothing but the speed: the target, the
    frame handle, the pending frames, the wheel listeners, the scroll
    offsets and the record of the observer stay as they are. *)
Theorem updatePointerY_only_speed (p : Page) (clientY : Q) (s : State) :
  updatePointerY p clientY s
  = with_speedRef (speedRef (updatePointerY p clientY s)) s.
Proof.
  unfold updatePointerY.
  destruct (containerRef s); [|destruct s; reflexivity].
  cbv zeta.
  destruct (Qltb _ _); [reflexivity|]. destruct (Qltb _ _); reflexivity.
Qed.

(** X4: The speed depends on the last pointer position only: a call of
    [updatePointerY] makes the calls before it irrelevant. *)
Theorem updatePointerY_last_wins (p1 p2 : Page) (y1 y2 : Q) (s : State) :
  updatePointerY p2 y2 (updatePointerY p1 y1 s) = updatePointerY p2 y2 s.
Proof.
  unfold updatePointerY at 2.
  destruct (containerRef s) as [el|] eqn:Hel; [|reflexivity].
  cbv zeta.
  assert (H : forall v,
            updatePointerY p2 y2 (with_speedRef v s) = updatePointerY p2 y2 s).
  { intro v. unfold updatePointerY. cbn [containerRef with_speedRef].
    rewrite Hel. cbv zeta.
    destruct (Qltb _ _); [reflexivity|]. destruct (Qltb _ _); reflexivity. }
  destruct (Qltb _ _); [apply H|]. destruct (Qltb _ _); apply H.
Qed.

Section Direction.

Variable p : Page.
Variable s : State.
Variable el : HTMLElement.
Hypothesis target : containerRef s = Some el.

Local Abbreviation dT := (distFromTop p el).
Local Abbreviation dB := (distFromBottom p el).

Lemma top_branch_negative (d : Q) :
  d < 100 -> (- maxSpeed) * (1 - d / threshold) * (1 - d / threshold) < 0.
Proof.
  intro H. unfold maxSpeed, threshold.
  assert (Er : 1 - d / 100 == (100 - d) * (1 # 100)) by field.
  rewrite Er. set (r := (100 - d) * (1 # 100)).
  assert (Hr : 0 < r) by (unfold r; lra).
  assert (Hsq : 0 < r * r) by nra.
  nra.
Qed.

Lemma bottom_branch_positive (d : Q) :
  d < 100 -> 0 < maxSpeed * (1 - d / threshold) * (1 - d / threshold).
Proof.
  intro H. unfold maxSpeed, threshold.
  assert (Er : 1 - d / 100 == (100 - d) * (1 # 100)) by field.
  rewrite Er. set (r := (100 - d) * (1 # 100)).
  assert (Hr : 0 < r) by (unfold r; lra).
  assert (Hsq : 0 < r * r) by nra.
  nra.
Qed.

(** X5: The sign of the speed tells the branch: it is negative (scroll up)
    exactly when the pointer is less than 100 from the top bound,
    positive (scroll down) exactly when it is not but is less than 100
    from the bottom bound, and zero exactly in between. *)
Theorem speed_direction (clientY : Q) :
  let speed := speedRef (updatePointerY p clientY s) in
  (speed < 0 <-> dT clientY < 100)
  /\ (0 < speed <-> 100 <= dT clientY /\ dB clientY < 100)
  /\ (speed == 0 <-> 100 <= dT clientY /\ 100 <= dB clientY).
Proof.
  intro speed. unfold speed.
  destruct (updatePointerY_cases p s el target clientY)
    as [[HT E]|[[HT [HB E]]|[HT [HB E]]]];
    rewrite E; cbn [speedRef with_speedRef].
  - pose proof (top_branch_negative _ HT) as Hneg.
    repeat split; intros;
      repeat match goal with H : _ /\ _ |- _ => destruct H end; lra.
  - pose proof (bottom_branch_positive _ HB) as Hpos.
    repeat split; intros;
      repeat match goal with H : _ /\ _ |- _ => destruct H end; lra.
  - repeat split; intros;
      repeat match goal with H : _ /\ _ |- _ => destruct H end; lra.
Qed.


End Direction.

Lemma speed_direction_witness :
  containerRef paneAtTopEdge = Some contentEl
  /\ distFromTop panePage contentEl 150 < 100
  /\ speedRef (updatePointerY panePage 150 paneAtTopEdge) < 0.
Proof.
  split; [reflexivity|]. split; [reflexivity|].
  apply (speed_direction panePage paneAtTopEdge contentEl eq_refl 150).
  reflexivity.
Defined.



(** X8: For a target that is the body or root element the bounds are those
    of the viewport: two pages with the same document and the same
    window height give the same result, whatever the bounding
    rectangles of their elements. *)
Theorem updatePointerY_doc_scroller (p p' : Page) (clientY : Q) (s : State)
    (el : HTMLElement) :
  containerRef s = Some el ->
  isDocRoot p el = true ->
  body p' = body p ->
  documentElement p' = documentElement p ->
  innerHeight p' = innerHeight p ->
  updatePointerY p' clientY s = updatePointerY p clientY s
  /\ visibleTop p el = 0
  /\ visibleBottom p el = innerHeight p.
Proof.
  intros Hel Hroot Hb Hd Hh. unfold visibleTop, visibleBottom.
  rewrite Hroot. split; [|split; reflexivity].
  unfold updatePointerY. rewrite Hel, Hb, Hd, Hh.
  unfold isDocRoot in Hroot. rewrite Hroot. reflexivity.
Qed.

Lemma updatePointerY_doc_scroller_witness :
  containerRef docIdle = Some html
  /\ isDocRoot docPage html = true
  /\ updatePointerY docPageScrolled 40 docIdle = updatePointerY docPage 40 docIdle.
Proof.
  split; [reflexivity|]. split; [reflexivity|].
  apply (updatePointerY_doc_scroller docPage docPageScrolled 40 docIdle html);
    reflexivity.
Defined.

(** ** Sessions from start to end *)

Lemma runCleanup_keeps (s : State) :
  speedRef (runCleanup s) = speedRef s
  /\ containerRef (runCleanup s) = containerRef s
  /\ nextFrame (runCleanup s) = nextFrame s
  /\ nextListener (runCleanup s) = nextListener s
  /\ scrollTop (runCleanup s) = scrollTop s
  /\ observed (runCleanup s) = observed s
  /\ onScrollRef (runCleanup s) = onScrollRef s.
Proof.
  unfold runCleanup, cancelPending.
  destruct (cleanup s); [|repeat split].
  destruct (rafRef s); repeat split.
Qed.

Lemma tick_keeps (s : State) :
  containerRef (tick s) = containerRef s
  /\ cleanup (tick s) = cleanup s
  /\ wheel (tick s) = wheel s
  /\ onScrollRef (tick s) = onScrollRef s
  /\ nextListener (tick s) = nextListener s.
Proof.
  destruct s as [sp rf cr os cl fr nf wh nl st ob].
  unfold tick, callOnScroll, setScrollTop. cbn.
  destruct (negb (Qeq_bool sp 0)); [|repeat split].
  destruct cr; [|repeat split].
  destruct os; repeat split.
Qed.

Lemma updatePointerY_keeps (p : Page) (clientY : Q) (s : State) :
  exists v, updatePointerY p clientY s = with_speedRef v s.
Proof.
  unfold updatePointerY.
  destruct (containerRef s);
    [|exists (speedRef s); destruct s; reflexivity].
  cbv zeta.
  destruct (Qltb _ _); [eexists; reflexivity|].
  destruct (Qltb _ _); eexists; reflexivity.
Qed.

Lemma tick_scrolls_target (s : State) (el : HTMLElement) :
  containerRef s = Some el ->
  scrollTop (tick s) (nodeId el) == scrollTop s (nodeId el) + speedRef s
  /\ forall i, i <> nodeId el -> scrollTop (tick s) i = scrollTop s i.
Proof.
  intro Hel. unfold tick, callOnScroll, setScrollTop. rewrite Hel.
  destruct (negb (Qeq_bool (speedRef s) 0)) eqn:Hspeed.
  - cbn [with_scrollTop onScrollRef scrollTop].
    destruct (onScrollRef s); cbn; rewrite Nat.eqb_refl;
      (split; [reflexivity|]);
      intros i Hi; apply Nat.eqb_neq in Hi; rewrite Hi; reflexivity.
  - apply speed_zero_iff in Hspeed. cbn. split; [|reflexivity].
    rewrite Hspeed. ring.
Qed.


(** A running session has a target. *)
Lemma running_has_target (evs : list Event) (s : State) :
  (cleanup s <> None -> containerRef s <> None) ->
  cleanup (run evs s) <> None -> containerRef (run evs s) <> None.
Proof.
  revert s. induction evs as [|ev rest IH]; intros s H; [exact H|].
  change (run (ev :: rest) s) with (run rest (step s ev)).
  apply IH. clear IH.
  destruct ev as [onScroll | p b | p clientY | | ]; cbn [step].
  - exact H.
  - unfold onDragStateChange, effect. destruct b; cbn [negb].
    + destruct (findScrollableAncestor p (content p)); cbn.
      * discriminate.
      * intro Hc. contradiction.
    + cbn. intro Hc. contradiction.
  - destruct (updatePointerY_keeps p clientY s) as [v ->]. exact H.
  - destruct (frames s); [exact H|].
    destruct (tick_keeps (with_frames l s)) as [-> [-> _]]. exact H.
  - unfold teardown, runCleanup. destruct (cleanup s) eqn:Hc.
    + cbn. intro Hc'. contradiction.
    + intro Hc'. rewrite Hc in Hc'. contradiction.
Qed.

Lemma dragStart_starts (p : Page) (s : State) (el : HTMLElement) :
  consistent s ->
  findScrollableAncestor p (content p) = Some el ->
  containerRef (dragStart p s) = Some el
  /\ rafRef (dragStart p s) = Some (nextFrame s)
  /\ frames (dragStart p s) = [nextFrame s]
  /\ wheel (dragStart p s) = [nextListener s]
  /\ cleanup (dragStart p s) = Some (nextListener s)
  /\ speedRef (dragStart p s) = speedRef s
  /\ scrollTop (dragStart p s) = scrollTop s.
Proof.
  intros H Hres.
  destruct (runCleanup_clears s H) as [Hc [Hw [Hr Hf]]].
  destruct (runCleanup_keeps s) as [Hsp [_ [Hnf [Hnl [Hst _]]]]].
  unfold dragStart, onDragStateChange, effect. cbn [negb]. rewrite Hres.
  cbn. rewrite Hw, Hf, Hnf, Hnl, Hsp, Hst. repeat split.
Qed.

(** X9: When [isDragging] turns true and the resolution yields an element,
    that element is stored as the target, one frame is requested and
    its handle stored, and one wheel listener is installed, so wheel
    events are prevented; the speed and the scroll offsets are left as
    they were. *)
Theorem dragStart_resolved (offsets : nat -> Q) (evs : list Event)
    (p : Page) (el : HTMLElement) :
  let s := run evs (mount offsets) in
  findScrollableAncestor p (content p) = Some el ->
  containerRef (dragStart p s) = Some el
  /\ rafRef (dragStart p s) = Some (nextFrame s)
  /\ frames (dragStart p s) = [nextFrame s]
  /\ wheel (dragStart p s) = [nextListener s]
  /\ wheelPrevented (dragStart p s) = true
  /\ speedRef (dragStart p s) = speedRef s
  /\ scrollTop (dragStart p s) = scrollTop s.
Proof.
  intros s Hres.
  assert (H : consistent s) by apply consistent_run, consistent_mount.
  destruct (dragStart_starts p s el H Hres)
    as [Hel [Hr [Hf [Hw [_ [Hsp Hst]]]]]].
  unfold wheelPrevented. rewrite Hw. repeat split; assumption.
Qed.

Lemma dragStart_resolved_witness :
  findScrollableAncestor panePage (content panePage) = Some contentEl
  /\ containerRef (dragStart panePage (dragStop panePage paneAtTopEdge))
     = Some contentEl
  /\ wheelPrevented (dragStart panePage (dragStop panePage paneAtTopEdge))
     = true.
Proof.
  split; [reflexivity|].
  destruct (dragStart_resolved startOffsets
              [Render true; DragState panePage true; PointerY panePage 100;
               DragState panePage false]
              panePage contentEl eq_refl)
    as [Hel [_ [_ [_ [Hw _]]]]].
  split; [exact Hel|exact Hw].
Defined.

(** X10: In a document that has a scrolling element every drag start begins
    a session, also when [#content] is not mounted: a target is stored,
    a frame is pending and wheel events are prevented; with [#content]
    missing the target is the scrolling element. *)
Theorem dragStart_with_scrollingElement (offsets : nat -> Q)
    (evs : list Event) (p : Page) :
  let s := run evs (mount offsets) in
  scrollingElement p <> None ->
  containerRef (dragStart p s) <> None
  /\ rafRef (dragStart p s) <> None
  /\ frames (dragStart p s) <> []
  /\ wheelPrevented (dragStart p s) = true
  /\ (content p = None -> containerRef (dragStart p s) = scrollingElement p).
Proof.
  intros s Hse.
  assert (H : consistent s) by apply consistent_run, consistent_mount.
  destruct (findScrollableAncestor p (content p)) as [el|] eqn:Hres.
  - destruct (dragStart_starts p s el H Hres)
      as [Hel [Hr [Hf [Hw _]]]].
    unfold wheelPrevented. rewrite Hel, Hr, Hf, Hw.
    repeat split; try discriminate.
    intro Hc. rewrite Hc in Hres. cbn in Hres.
    destruct (scrollingElement p); [symmetry; exact Hres|discriminate].
  - exfalso. rewrite findScrollableAncestor_firstStop in Hres.
    destruct (firstStop p (content p)) as [c|]; [|contradiction].
    destruct (isDocRoot p c); [|discriminate].
    destruct (scrollingElement p); [discriminate|contradiction].
Qed.

Lemma dragStart_with_scrollingElement_witness :
  scrollingElement unmountedPage <> None
  /\ content unmountedPage = None
  /\ containerRef (dragStart unmountedPage (mount startOffsets))
     = scrollingElement unmountedPage.
Proof.
  assert (H : scrollingElement unmountedPage <> None) by discriminate.
  split; [exact H|]. split; [reflexivity|].
  apply (dragStart_with_scrollingElement startOffsets [] unmountedPage H).
  reflexivity.
Defined.

(** X11: After any history at most one frame is pending, and it is the one
    whose handle [rafRef] holds: the loop is never doubled and no frame
    is left behind.  A frame is pending exactly while a session runs,
    and a running session has a target. *)
Theorem single_pending_frame (offsets : nat -> Q) (evs : list Event) :
  let s := run evs (mount offsets) in
  frames s = match rafRef s with Some h => [h] | None => [] end
  /\ (rafRef s <> None <-> cleanup s <> None)
  /\ (rafRef s <> None -> containerRef s <> None).
Proof.
  intro s.
  assert (H : consistent s) by apply consistent_run, consistent_mount.
  assert (Ht : cleanup s <> None -> containerRef s <> None).
  { apply running_has_target. cbn. intro Hc. contradiction. }
  unfold consistent in H. destruct (cleanup s) as [l|].
  - destruct H as [_ [h [Hr Hf]]]. rewrite Hr, Hf.
    split; [reflexivity|]. split; [split; discriminate|].
    intros _. apply Ht. discriminate.
  - destruct H as [_ [Hr Hf]]. rewrite Hr, Hf.
    split; [reflexivity|]. split; [split; intro H; exact H|].
    intro H. contradiction.
Qed.

(** X12: After any history wheel events are prevented exactly while a frame
    is pending, and at most one wheel listener is installed. *)
Theorem wheel_blocked_iff_running (offsets : nat -> Q) (evs : list Event) :
  let s := run evs (mount offsets) in
  (wheelPrevented s = true <-> rafRef s <> None)
  /\ (List.length (wheel s) <= 1)%nat
  /\ wheel s = match cleanup s with Some l => [l] | None => [] end.
Proof.
  intro s.
  assert (H : consistent s) by apply consistent_run, consistent_mount.
  unfold consistent in H. unfold wheelPrevented.
  destruct (cleanup s) as [l|].
  - destruct H as [Hw [h [Hr _]]]. rewrite Hw, Hr. cbn.
    split; [split; [discriminate|reflexivity]|]. split; [lia|reflexivity].
  - destruct H as [Hw [Hr _]]. rewrite Hw, Hr. cbn.
    split; [split; [discriminate|intro H; contradiction]|].
    split; [lia|reflexivity].
Qed.

(** ** Frames in a row *)




(** X14: Once [isDragging] has turned false, or the hook is torn down,
    animation frames change nothing: no loop of an earlier session goes
    on scrolling. *)
Theorem no_frames_after_stop (offsets : nat -> Q) (evs : list Event)
    (p : Page) (n : nat) :
  let s := run evs (mount offsets) in
  run (framesInRow n) (dragStop p s) = dragStop p s
  /\ run (framesInRow n) (teardown s) = teardown s.
Proof.
  intro s.
  assert (H : consistent s) by apply consistent_run, consistent_mount.
  assert (Hidle : forall s0, frames s0 = [] -> run (framesInRow n) s0 = s0).
  { intros s0 Hf. induction n as [|n IH]; [reflexivity|].
    change (run (framesInRow (S n)) s0)
      with (run (framesInRow n) (step s0 AnimationFrame)).
    cbn [step]. rewrite Hf. exact IH. }
  split; apply Hidle.
  - apply (dragStop_settles p s H).
  - apply (runCleanup_clears s H).
Qed.

(** ** What changes what *)

(** X15: The target is resolved when the effect runs and at no other time:
    renders, pointer positions, frames and teardown leave the stored
    target as it is. *)
Theorem target_fixed (evs : list Event) (s : State) :
  noDragState evs = true ->
  containerRef (run evs s) = containerRef s.
Proof.
  revert s. induction evs as [|ev rest IH]; intros s Hno; [reflexivity|].
  cbn [noDragState forallb] in Hno. apply andb_prop in Hno.
  destruct Hno as [Hev Hrest].
  change (run (ev :: rest) s) with (run rest (step s ev)).
  rewrite (IH _ Hrest). clear IH.
  destruct ev as [onScroll | p b | p clientY | | ]; cbn [step].
  - reflexivity.
  - discriminate Hev.
  - destruct (updatePointerY_keeps p clientY s) as [v ->]. reflexivity.
  - destruct (frames s); [reflexivity|].
    destruct (tick_keeps (with_frames l s)) as [-> _]. reflexivity.
  - apply (runCleanup_keeps s).
Qed.

Lemma target_fixed_witness :
  noDragState [PointerY docPage 40; AnimationFrame; Render false;
               PointerY panePage 990; AnimationFrame; Unmount] = true
  /\ containerRef
       (run [PointerY docPage 40; AnimationFrame; Render false;
             PointerY panePage 990; AnimationFrame; Unmount] paneAtTopEdge)
     = containerRef paneAtTopEdge.
Proof.
  split; [reflexivity|].
  apply (target_fixed
           [PointerY docPage 40; AnimationFrame; Render false;
            PointerY panePage 990; AnimationFrame; Unmount] paneAtTopEdge).
  reflexivity.
Defined.

(** X16: A scroll offset changes on an animation frame only, and then only
    that of the stored target. *)
Theorem scroll_only_on_frames (s : State) (ev : Event) :
  (ev <> AnimationFrame -> scrollTop (step s ev) = scrollTop s)
  /\ (forall i,
      (forall el, containerRef s = Some el -> nodeId el <> i) ->
      scrollTop (step s ev) i = scrollTop s i).
Proof.
  assert (Hframe : forall i,
            (forall el, containerRef s = Some el -> nodeId el <> i) ->
            scrollTop (step s AnimationFrame) i = scrollTop s i).
  { intros i Hi. cbn [step]. destruct (frames s) as [|h rest]; [reflexivity|].
    destruct (containerRef s) as [el|] eqn:Hel.
    - apply (tick_scrolls_target (with_frames rest s) el Hel).
      intro E. apply (Hi el eq_refl). symmetry. exact E.
    - unfold tick. cbn [with_frames speedRef containerRef]. rewrite Hel.
      destruct (negb (Qeq_bool (speedRef s) 0)); reflexivity. }
  assert (Hother : ev <> AnimationFrame -> scrollTop (step s ev) = scrollTop s).
  { intro Hev.
    destruct ev as [onScroll | p b | p clientY | | ]; cbn [step].
    - reflexivity.
    - destruct (runCleanup_keeps s) as [_ [_ [_ [_ [Hst _]]]]].
      rewrite <- Hst. unfold onDragStateChange, effect.
      destruct b; cbn [negb].
      + destruct (findScrollableAncestor p (content p)); reflexivity.
      + unfold cancelPending. destruct (rafRef (runCleanup s)); reflexivity.
    - destruct (updatePointerY_keeps p clientY s) as [v ->]. reflexivity.
    - contradiction.
    - apply (runCleanup_keeps s). }
  split; [exact Hother|].
  intros i Hi.
  destruct ev as [onScroll | p b | p clientY | | ];
    try (rewrite Hother by discriminate; reflexivity).
  apply Hframe. exact Hi.
Qed.

Lemma scroll_only_on_frames_witness :
  PointerY panePage 100 <> AnimationFrame
  /\ scrollTop (step paneAtTopEdge (PointerY panePage 100))
     = scrollTop paneAtTopEdge.
Proof.
  assert (H : PointerY panePage 100 <> AnimationFrame) by discriminate.
  split; [exact H|].
  exact (proj1 (scroll_only_on_frames paneAtTopEdge (PointerY panePage 100)) H).
Defined.

